(** * ButtonStim (src/visual/ButtonStim.js): click history of a button stimulus

    A shallow embedding of the [ButtonStim] class and of the part of the
    JavaScript semantics its body relies on (dynamic values, [typeof],
    truthiness, destructuring defaults, [String.prototype.includes]).

    The class extends [TextBox] and owns a [Mouse]; neither [TextBox.js],
    [Mouse.js] nor [Util.js] is part of the sources, so their entry points
    are the fields of the interface [Collaborators] below and every
    theorem holds for all of its instances. *)

From Stdlib Require Import ZArith String Ascii List Bool Sorted Lia.
From stdpp Require Import base option list strings gmap fin_maps.
Import ListNotations.

Local Open Scope string_scope.
Local Open Scope list_scope.
Local Open Scope Z_scope.
Local Open Scope stdpp_scope.

(** ** JavaScript values *)

Module JS.

#[local] Set Warnings "-register-all".

(** Dynamic values.  Host objects (the window, colours, ...) and
    functions ([boxFn]) are opaque references.  Numbers: only integer
    literals occur in the class body. *)
Inductive Value : Type :=
| VUndefined
| VNull
| VBool (b : bool)
| VNumber (n : Z)
| VString (s : string)
| VArray (elems : list Value)
| VObject (ref : positive)
| VFunction (ref : positive).

Inductive Exception : Type :=
| TypeError (msg : string)
| Thrown (v : Value).

Inductive Result (A : Type) : Type :=
| Ok (a : A)
| Throw (e : Exception).
Arguments Ok {A} a.
Arguments Throw {A} e.

(** [typeof v] *)
Definition typeof (v : Value) : string :=
  match v with
  | VUndefined => "undefined"
  | VNull => "object"
  | VBool _ => "boolean"
  | VNumber _ => "number"
  | VString _ => "string"
  | VArray _ => "object"
  | VObject _ => "object"
  | VFunction _ => "function"
  end.

(** ToBoolean, as applied by [if (...)] and [?:]. *)
Definition toBoolean (v : Value) : bool :=
  match v with
  | VUndefined | VNull => false
  | VBool b => b
  | VNumber n => negb (n =? 0)
  | VString s => negb (String.eqb s EmptyString)
  | VArray _ | VObject _ | VFunction _ => true
  end.

(** The one-character string ['\n'] (U+000A). *)
Definition LF : ascii := "010"%char.
Definition newline : string := String LF EmptyString.

(** [s.includes(sub)]: does [sub] occur in [s] at some position?  The
    needle used by the class is a single ASCII character, for which
    code units and bytes agree. *)
Fixpoint includes (s sub : string) : bool :=
  String.prefix sub s
  || match s with
     | EmptyString => false
     | String _ rest => includes rest sub
     end.

(** SameValueZero against a string, as [Array.prototype.includes] compares. *)
Definition same_string (needle : string) (v : Value) : bool :=
  match v with
  | VString t => String.eqb t needle
  | _ => false
  end.

(** The method call [recv.includes(needle)] on a dynamic receiver:
    strings and arrays have the method, [undefined] and [null] have no
    properties at all, the remaining values have no such method. *)
Definition invoke_includes (recv : Value) (needle : string) : Result bool :=
  match recv with
  | VString s => Ok (includes s needle)
  | VArray elems => Ok (existsb (same_string needle) elems)
  | VUndefined | VNull =>
      Throw (TypeError "Cannot read properties of undefined or null")
  | VBool _ | VNumber _ | VObject _ | VFunction _ =>
      Throw (TypeError "includes is not a function")
  end.

(** Property read [o.k] on an object literal or option bag: a missing
    key reads as [undefined]. *)
Definition get (o : gmap string Value) (k : string) : Value :=
  match o !! k with
  | Some v => v
  | None => VUndefined
  end.

(** Destructuring with a default, [{ k = d } = o]: the default is taken
    exactly when the property reads as [undefined]. *)
Definition get_or (o : gmap string Value) (k : string) (d : Value) : Value :=
  match get o k with
  | VUndefined => d
  | v => v
  end.

End JS.
Import JS.

(** ** Observable effects and the monads the class body runs in *)

(** What a run of the class body does to the outside: the calls into the
    super class, the listener and the loggers, and the writes through the
    tracked-attribute setters, in program order. *)
Inductive Effect : Type :=
| SuperConstructor (options : gmap string Value)
| LoggerDebug (msg : string) (arg : Value)
| NewMouse (options : gmap string Value)
| AddAttribute (attribute : string) (v : Value)
| ExperimentLog (name : Value) (dump : string)
| IsPressedIn (buttons : list Z) (answer : bool)
| SetAttribute (attribute : string) (v : Value)
| SuperReset.

(** Effects so far, and a value or the exception that ended the run. *)
Definition W (A : Type) : Type := list Effect * Result A.

#[global] Instance W_ret : MRet W := fun A a => ([], Ok a).
#[global] Instance W_bind : MBind W := fun A B f m =>
  match m with
  | (t, Ok a) => let '(t', r) := f a in (t ++ t', r)
  | (t, Throw e) => (t, Throw e)
  end.

Definition emit (e : Effect) : W unit := ([e], Ok tt).
Definition lift {A : Type} (r : Result A) : W A := ([], r).

(** Methods: [W] with the receiver [this] threaded through. *)
Definition M (S A : Type) : Type := S -> W (A * S).

#[global] Instance M_ret {S : Type} : MRet (M S) := fun A a this => mret (a, this).
#[global] Instance M_bind {S : Type} : MBind (M S) := fun A B f m this =>
  m this ≫= fun '(a, this') => f a this'.

Definition effects {A : Type} (m : W A) : list Effect := fst m.
Definition outcome {A : Type} (m : W A) : Result A := snd m.

(** ** The object *)

(** Timestamps of the click history (clock readings). *)
Definition Time : Type := Z.

(** A [ButtonStim] instance: the properties the class itself declares,
    and [inherited], the properties the [TextBox] constructor chain has
    put on [this] (among them [_multiline], [_autoLog] and [name]). *)
Record ButtonStim (Mouse : Type) : Type := mkButtonStim {
  inherited : gmap string Value;
  listener : Mouse;
  wasClicked : bool;
  timesOn : list Time;
  timesOff : list Time
}.
Arguments mkButtonStim {Mouse}.
Arguments inherited {Mouse}.
Arguments listener {Mouse}.
Arguments wasClicked {Mouse}.
Arguments timesOn {Mouse}.
Arguments timesOff {Mouse}.

(** The entry points of the classes the file imports but the sources do
    not contain.  Constructors may throw; following the specification,
    the label's [reset] acts on the label's own state and, like the
    listener's query, always answers. *)
Class Collaborators : Type := {
  Mouse : Type;
  (** [super({...})] in [TextBox.js]: the properties it leaves on [this]. *)
  TextBox_constructor : gmap string Value -> Result (gmap string Value);
  (** [super.reset()] in [TextBox.js]. *)
  TextBox_reset : gmap string Value -> gmap string Value;
  (** [new Mouse({...})] in [Mouse.js]. *)
  Mouse_constructor : gmap string Value -> Result Mouse;
  (** [listener.isPressedIn(shape, buttons)] in [Mouse.js]. *)
  isPressedIn : Mouse -> ButtonStim Mouse -> list Z -> bool;
  (** [util.toString(object)] in [Util.js]. *)
  util_toString : ButtonStim Mouse -> string
}.

(** ** The constructor's parameter list *)

Module Opt.
(** The local bindings made by destructuring the [options] argument. *)
Record t : Type := mk {
  win : Value; name : Value; text : Value; font : Value; pos : Value;
  size : Value; padding : Value; anchor : Value; units : Value;
  color : Value; fillColor : Value; borderColor : Value;
  borderWidth : Value; opacity : Value; depth : Value;
  letterHeight : Value; bold : Value; italic : Value; autoDraw : Value;
  autoLog : Value; boxFn : Value; multiline : Value
}.
End Opt.

(** The parameter default [= {}]: an omitted argument is the empty
    object.  The argument is an object or omitted; [null], on which the
    destructuring itself throws, is outside the model. *)
Definition options_of (arg : option (gmap string Value)) : gmap string Value :=
  match arg with
  | Some o => o
  | None => ∅
  end.

(** [{ win, name, text, ..., anchor = "center", ..., multiline } = {}]
    (lines 43-66): four of the bindings have defaults. *)
Definition destructure (arg : option (gmap string Value)) : Opt.t :=
  let o := options_of arg in
  {| Opt.win := get o "win";
     Opt.name := get o "name";
     Opt.text := get o "text";
     Opt.font := get o "font";
     Opt.pos := get o "pos";
     Opt.size := get o "size";
     Opt.padding := get o "padding";
     Opt.anchor := get_or o "anchor" (VString "center");
     Opt.units := get o "units";
     Opt.color := get o "color";
     Opt.fillColor := get_or o "fillColor" (VString "darkgrey");
     Opt.borderColor := get o "borderColor";
     Opt.borderWidth := get_or o "borderWidth" (VNumber 0);
     Opt.opacity := get o "opacity";
     Opt.depth := get o "depth";
     Opt.letterHeight := get o "letterHeight";
     Opt.bold := get_or o "bold" (VBool true);
     Opt.italic := get o "italic";
     Opt.autoDraw := get o "autoDraw";
     Opt.autoLog := get o "autoLog";
     Opt.boxFn := get o "boxFn";
     Opt.multiline := get o "multiline" |}.

(** The object literal handed to [super(...)] (lines 69-94). *)
Definition super_options (p : Opt.t) : gmap string Value :=
  list_to_map
    [ ("win", Opt.win p);
      ("name", Opt.name p);
      ("text", Opt.text p);
      ("placeholder", Opt.text p);
      ("font", Opt.font p);
      ("pos", Opt.pos p);
      ("size", Opt.size p);
      ("padding", Opt.padding p);
      ("anchor", Opt.anchor p);
      ("units", Opt.units p);
      ("color", Opt.color p);
      ("fillColor", Opt.fillColor p);
      ("borderColor", Opt.borderColor p);
      ("borderWidth", Opt.borderWidth p);
      ("opacity", Opt.opacity p);
      ("depth", Opt.depth p);
      ("letterHeight", Opt.letterHeight p);
      ("multiline", Opt.multiline p);
      ("bold", Opt.bold p);
      ("italic", Opt.italic p);
      ("alignment", VString "center");
      ("autoDraw", Opt.autoDraw p);
      ("autoLog", Opt.autoLog p);
      ("boxFn", Opt.boxFn p) ].

(** The object literal handed to [new Mouse(...)] (line 122). *)
Definition mouse_options (p : Opt.t) : gmap string Value :=
  list_to_map
    [ ("name", Opt.name p); ("win", Opt.win p); ("autoLog", Opt.autoLog p) ].

(** [typeof text === 'string' && text.includes('\n') ? true : false]
    (line 98): [&&] evaluates its right operand only when the left one
    is true. *)
Definition multiline_of_text (text : Value) : Result bool :=
  if String.eqb (typeof text) "string"
  then match invoke_includes text newline with
       | Ok found => Ok (if found then true else false)
       | Throw e => Throw e
       end
  else Ok false.

(** ** The class body *)

Section Class.
Context `{Collaborators}.

(** Modelled from the spec: [_addAttribute(name, value)] is inherited
    from [PsychObject], which the sources do not contain; per the
    specification it declares [name] as a tracked attribute of the
    control and initialises it to [value].  The initial values end up
    in the typed fields of the record built below. *)
Definition _addAttribute (attribute : string) (v : Value) : W unit :=
  emit (AddAttribute attribute v).

(** [constructor({...} = {})], lines 42-144. *)
Definition ButtonStim_constructor (arg : option (gmap string Value))
  : W (ButtonStim Mouse) :=
  let p := destructure arg in
  _ ← emit (SuperConstructor (super_options p));
  this0 ← lift (TextBox_constructor (super_options p));
  multiline ← lift (multiline_of_text (Opt.text p));
  let this1 := <["_multiline" := VBool multiline]> this0 in
  _ ← emit (LoggerDebug "create a new Button with name: " (Opt.name p));
  _ ← emit (NewMouse (mouse_options p));
  mouse ← lift (Mouse_constructor (mouse_options p));
  _ ← _addAttribute "wasClicked" (VBool false);
  _ ← _addAttribute "timesOn" (VArray []);
  _ ← _addAttribute "timesOff" (VArray []);
  let this :=
    {| inherited := this1; listener := mouse;
       wasClicked := false; timesOn := []; timesOff := [] |} in
  _ ← (if toBoolean (get this1 "_autoLog")
       then emit (ExperimentLog (get this1 "name") (util_toString this))
       else mret tt);
  mret this.

(** The value the getter [isClicked] computes (line 163). *)
Definition isClicked_value (this : ButtonStim Mouse) : bool :=
  isPressedIn (listener this) this [1; 0; 0].

(** [get numClicks()], lines 151-154. *)
Definition numClicks : M (ButtonStim Mouse) Z :=
  fun this => mret (Z.of_nat (length (timesOn this)), this).

(** [get isClicked()], lines 161-164. *)
Definition isClicked : M (ButtonStim Mouse) bool :=
  fun this =>
    let answer := isClicked_value this in
    _ ← emit (IsPressedIn [1; 0; 0] answer);
    mret (answer, this).

(** Writes through the setters of the three tracked attributes. *)
Definition set_wasClicked (b : bool) : M (ButtonStim Mouse) unit :=
  fun this =>
    _ ← emit (SetAttribute "wasClicked" (VBool b));
    mret (tt, {| inherited := inherited this; listener := listener this;
                 wasClicked := b;
                 timesOn := timesOn this; timesOff := timesOff this |}).

Definition set_timesOn (l : list Time) : M (ButtonStim Mouse) unit :=
  fun this =>
    _ ← emit (SetAttribute "timesOn" (VArray (VNumber <$> l)));
    mret (tt, {| inherited := inherited this; listener := listener this;
                 wasClicked := wasClicked this;
                 timesOn := l; timesOff := timesOff this |}).

Definition set_timesOff (l : list Time) : M (ButtonStim Mouse) unit :=
  fun this =>
    _ ← emit (SetAttribute "timesOff" (VArray (VNumber <$> l)));
    mret (tt, {| inherited := inherited this; listener := listener this;
                 wasClicked := wasClicked this;
                 timesOn := timesOn this; timesOff := l |}).

(** [super.reset()]: the label's own reset, on the label's state. *)
Definition super_reset : M (ButtonStim Mouse) unit :=
  fun this =>
    _ ← emit SuperReset;
    mret (tt, {| inherited := TextBox_reset (inherited this);
                 listener := listener this;
                 wasClicked := wasClicked this;
                 timesOn := timesOn this; timesOff := timesOff this |}).

(** [reset()], lines 171-179. *)
Definition reset : M (ButtonStim Mouse) unit :=
  clicked ← isClicked;
  _ ← set_wasClicked clicked;
  _ ← set_timesOn [];
  _ ← set_timesOff [];
  super_reset.

(** The receiver after a method call; an exception leaves the caller
    with the receiver it had. *)
Definition after {A : Type} (m : M (ButtonStim Mouse) A)
    (this : ButtonStim Mouse) : ButtonStim Mouse :=
  match outcome (m this) with
  | Ok (_, this') => this'
  | Throw _ => this
  end.

(** Does an effect write an attribute other than the three of the click
    history?  Queries and the label's own reset write none. *)
Definition writes_outside_history (e : Effect) : bool :=
  match e with
  | SetAttribute a _ | AddAttribute a _ =>
      negb (String.eqb a "wasClicked" || String.eqb a "timesOn"
            || String.eqb a "timesOff")
  | _ => false
  end.

(** Does an effect change the control or the world (as opposed to asking
    the listener a question)? *)
Definition is_mutation (e : Effect) : bool :=
  match e with
  | IsPressedIn _ _ => false
  | _ => true
  end.

(** The layout mode of a control: its [_multiline] property. *)
Definition layout_mode (this : ButtonStim Mouse) : Value :=
  get (inherited this) "_multiline".

End Class.

(** ** The frame-update path *)

(** The two states of the click state machine. *)
Inductive Phase : Type := IDLE | PRESSED.

(** A control inside its frame loop: the control, the state of the
    click state machine, and the clock reading of the last frame. *)
Record Driver (Mouse : Type) : Type := mkDriver {
  control : ButtonStim Mouse;
  phase : Phase;
  clock : Time
}.
Arguments mkDriver {Mouse}.
Arguments control {Mouse}.
Arguments phase {Mouse}.
Arguments clock {Mouse}.

Section FrameLoop.
Context `{Collaborators}.

(** What happens to a control between two observations. *)
Inductive Event : Type :=
| PointerChanges (m : Mouse)   (* the pointer moves, a button goes down or up *)
| TimePasses (dt : N)          (* the clock advances by [dt] *)
| Frame                        (* one frame update, stamped with the clock *)
| CallReset.                   (* the script calls [reset()] *)

Definition record_press (t : Time) (this : ButtonStim Mouse) : ButtonStim Mouse :=
  {| inherited := inherited this; listener := listener this;
     wasClicked := wasClicked this;
     timesOn := timesOn this ++ [t]; timesOff := timesOff this |}.

Definition record_release (t : Time) (this : ButtonStim Mouse) : ButtonStim Mouse :=
  {| inherited := inherited this; listener := listener this;
     wasClicked := wasClicked this;
     timesOn := timesOn this; timesOff := timesOff this ++ [t] |}.

Definition with_listener (m : Mouse) (this : ButtonStim Mouse) : ButtonStim Mouse :=
  {| inherited := inherited this; listener := m;
     wasClicked := wasClicked this;
     timesOn := timesOn this; timesOff := timesOff this |}.

(** Is there a press in [timesOn] whose release is not yet in [timesOff]? *)
Definition has_unmatched_press (this : ButtonStim Mouse) : bool :=
  (length (timesOff this) <? length (timesOn this))%nat.

(** Modelled from the spec: the per-frame driver is not part of the
    sources.  Per the specification it polls the listener once a frame
    and detects edges: the transition IDLE to PRESSED appends the frame's
    timestamp to [timesOn]; the transition PRESSED to IDLE appends it to
    [timesOff], a release being recorded only against a prior unmatched
    press; nothing else is recorded. *)
Definition frameUpdate (d : Driver Mouse) : Driver Mouse :=
  match phase d, isClicked_value (control d) with
  | IDLE, true =>
      {| control := record_press (clock d) (control d);
         phase := PRESSED; clock := clock d |}
  | PRESSED, false =>
      {| control := if has_unmatched_press (control d)
                    then record_release (clock d) (control d)
                    else control d;
         phase := IDLE; clock := clock d |}
  | _, _ => d
  end.

(** Modelled from the spec: one event of the frame loop.  Time only
    moves forward; [reset()] leaves the state of the state machine
    alone. *)
Definition step (d : Driver Mouse) (e : Event) : Driver Mouse :=
  match e with
  | PointerChanges m =>
      {| control := with_listener m (control d);
         phase := phase d; clock := clock d |}
  | TimePasses dt =>
      {| control := control d; phase := phase d;
         clock := clock d + Z.of_N dt |}
  | Frame => frameUpdate d
  | CallReset =>
      {| control := after reset (control d);
         phase := phase d; clock := clock d |}
  end.

Definition run (es : list Event) (d : Driver Mouse) : Driver Mouse :=
  fold_left step es d.

(** Modelled from the spec: a freshly constructed control enters the
    frame loop in IDLE. *)
Definition boot (this : ButtonStim Mouse) (t0 : Time) : Driver Mouse :=
  {| control := this; phase := IDLE; clock := t0 |}.

(** The two history bounds of the specification. *)
Definition balanced (this : ButtonStim Mouse) : Prop :=
  (length (timesOff this) <= length (timesOn this) <= length (timesOff this) + 1)%nat.

Definition non_decreasing (l : list Time) : Prop := StronglySorted Z.le l.

(** The invariant of the frame loop: both sequences are ordered and lie
    in the past, and their lengths follow the state machine. *)
Definition loop_invariant (d : Driver Mouse) : Prop :=
  non_decreasing (timesOn (control d))
  /\ non_decreasing (timesOff (control d))
  /\ Forall (fun x => x <= clock d) (timesOn (control d))
  /\ Forall (fun x => x <= clock d) (timesOff (control d))
  /\ match phase d with
     | IDLE =>
         length (timesOn (control d)) = length (timesOff (control d))
     | PRESSED =>
         length (timesOn (control d)) = S (length (timesOff (control d)))
         \/ length (timesOn (control d)) = length (timesOff (control d))
     end.

(** ** What the listener's hit test reads

    [isPressedIn] is handed the whole control.  [hit_test_reads g] says
    that its answer depends on the control only through [g] of the
    inherited state; [label_reset_keeps g] says that the label's own
    reset leaves [g] as it is. *)
Definition hit_test_reads {G : Type} (g : gmap string Value -> G) : Prop :=
  forall (m : Mouse) (a b : ButtonStim Mouse) (buttons : list Z),
    g (inherited a) = g (inherited b) ->
    isPressedIn m a buttons = isPressedIn m b buttons.

Definition label_reset_keeps {G : Type} (g : gmap string Value -> G) : Prop :=
  forall i : gmap string Value, g (TextBox_reset i) = g i.

End FrameLoop.

(** ** A test bench

    Stand-ins for the collaborators, to run the class on concrete inputs:
    the label keeps the options it was built from and its [reset] puts
    the placeholder back as text; the listener is one bit, whether the
    primary button is down over the control, [down] when it is created. *)
Definition bench (down : bool) : Collaborators :=
  {| Mouse := bool;
     TextBox_constructor := fun o => Ok o;
     TextBox_reset := fun t => <["text" := get t "placeholder"]> t;
     Mouse_constructor := fun _ => Ok down;
     isPressedIn := fun m _ _ => m;
     util_toString := fun _ => "ButtonStim" |}.

(** [new ButtonStim({ text: "Click me" })] *)
Definition click_me : option (gmap string Value) :=
  Some {[ "text" := VString "Click me" ]}.

(** A caption of two lines, an explicit [multiline: false] and an
    [alignment] request. *)
Definition two_lines : option (gmap string Value) :=
  Some (list_to_map
          [ ("text", VString ("Line1" +:+ newline +:+ "Line2"));
            ("multiline", VBool false);
            ("alignment", VString "left") ]).

(** A control that has seen two presses and one release, the pointer
    still down. *)
Definition mid_click : ButtonStim (@Mouse (bench false)) :=
  {| inherited := {[ "text" := VString "Go"; "placeholder" := VString "Go" ]};
     listener := true;
     wasClicked := false;
     timesOn := [1; 5];
     timesOff := [3] |}.

(** The primary button goes down over the control, or up. *)
Definition pointer (down : bool) : @Event (bench false) :=
  @PointerChanges (bench false) down.

(** One full click, then a reset. *)
Definition click_then_reset : list (@Event (bench false)) :=
  [ pointer true; TimePasses 1; Frame; pointer false; TimePasses 1; Frame;
    CallReset ].

(** A reset while the button is held down, then the release. *)
Definition reset_while_pressed : list (@Event (bench false)) :=
  [ pointer true; TimePasses 1; Frame; CallReset; pointer false;
    TimePasses 1; Frame ].

(** A click, and a second press still held. *)
Definition click_and_a_half : list (@Event (bench false)) :=
  [ TimePasses 1; pointer true; Frame; TimePasses 1; pointer false; Frame;
    TimePasses 3; pointer true; Frame; TimePasses 2; Frame ].

(** ** A bench with a fitted box

    The label's box is as wide as its text; the listener is the pointer's
    abscissa and the state of the primary button, and it reports a press
    when the button is down with the pointer inside the box.  The label's
    [reset] puts the placeholder back as text. *)
Definition text_width (i : gmap string Value) : Z :=
  match get i "text" with
  | VString s => Z.of_nat (String.length s)
  | _ => 0
  end.

Definition fitted : Collaborators :=
  {| Mouse := (Z * bool)%type;
     TextBox_constructor := fun o => Ok o;
     TextBox_reset := fun t => <["text" := get t "placeholder"]> t;
     Mouse_constructor := fun _ => Ok (0, false);
     isPressedIn := fun m this _ =>
       snd m && (0 <=? fst m) && (fst m <? text_width (inherited this));
     util_toString := fun _ => "ButtonStim" |}.

(** A button whose caption was changed to a longer one after
    construction, pressed near its right end. *)
Definition long_caption : ButtonStim (@Mouse fitted) :=
  {| inherited := {[ "text" := VString "A long caption";
                     "placeholder" := VString "Go" ]};
     listener := (5, true);
     wasClicked := false;
     timesOn := [];
     timesOff := [] |}.

(** ** Tables read off the constructor's parameter list *)

(** The option names the constructor destructures (lines 44-65); no
    other property of the argument is ever read. *)
Definition destructured_keys : list string :=
  [ "win"; "name"; "text"; "font"; "pos"; "size"; "padding"; "anchor";
    "units"; "color"; "fillColor"; "borderColor"; "borderWidth"; "opacity";
    "depth"; "letterHeight"; "bold"; "italic"; "autoDraw"; "autoLog";
    "boxFn"; "multiline" ].

(** The four bindings with a default (lines 51, 54, 56, 60). *)
Definition constructor_defaults : list (string * Value) :=
  [ ("anchor", VString "center");
    ("fillColor", VString "darkgrey");
    ("borderWidth", VNumber 0);
    ("bold", VBool true) ].

(** The bindings without a default, [text] included. *)
Definition plain_keys : list string :=
  [ "win"; "name"; "text"; "font"; "pos"; "size"; "padding"; "units";
    "color"; "borderColor"; "opacity"; "depth"; "letterHeight"; "italic";
    "autoDraw"; "autoLog"; "boxFn"; "multiline" ].

(** The value line 98 computes, as a total function of the text. *)
Definition has_line_break (text : Value) : bool :=
  match text with
  | VString s => includes s newline
  | _ => false
  end.

Definition is_experiment_log (e : Effect) : bool :=
  match e with
  | ExperimentLog _ _ => true
  | _ => false
  end.

(** A second bench, closer to the library: the label constructor copies
    [name] and [autoLog] onto [this] as [name] and [_autoLog]; either
    constructor can be made to throw. *)
Definition lab (label_ok mouse_ok : bool) : Collaborators :=
  {| Mouse := bool;
     TextBox_constructor := fun o =>
       if label_ok
       then Ok (<["_autoLog" := get o "autoLog"]> o)
       else Throw (Thrown (VString "no window"));
     TextBox_reset := fun t => <["text" := get t "placeholder"]> t;
     Mouse_constructor := fun _ =>
       if mouse_ok then Ok false else Throw (Thrown (VString "no mouse"));
     isPressedIn := fun m _ _ => m;
     util_toString := fun _ => "ButtonStim" |}.

(** [new ButtonStim({ name: "ok", text: "OK", autoLog: true })] *)
Definition logged_ok : option (gmap string Value) :=
  Some (list_to_map
          [ ("name", VString "ok"); ("text", VString "OK");
            ("autoLog", VBool true) ]).

(** [click_me] with properties the constructor does not know. *)
Definition click_me_with_extras : option (gmap string Value) :=
  Some (list_to_map
          [ ("text", VString "Click me"); ("alignment", VString "left");
            ("editable", VBool true); ("font", VUndefined) ]).

(** [mid_click] with another past. *)
Definition mid_click_other_history : ButtonStim (@Mouse (bench false)) :=
  {| inherited := {[ "text" := VString "Go"; "placeholder" := VString "Go" ]};
     listener := true;
     wasClicked := true;
     timesOn := [2; 4; 8];
     timesOff := [3; 5; 9] |}.

(** The three declarations of lines 124-138, in program order. *)
Definition attribute_declarations : list Effect :=
  [ AddAttribute "wasClicked" (VBool false);
    AddAttribute "timesOn" (VArray []);
    AddAttribute "timesOff" (VArray []) ].

(** The control a construction returns, [fallback] if it throws. *)
Definition the_control `{Collaborators} (arg : option (gmap string Value))
    (fallback : ButtonStim Mouse) : ButtonStim Mouse :=
  match outcome (ButtonStim_constructor arg) with
  | Ok this => this
  | Throw _ => fallback
  end.

(** A control of the second bench with nothing on it. *)
Definition blank : ButtonStim (@Mouse (lab true true)) :=
  {| inherited := ∅; listener := false;
     wasClicked := false; timesOn := []; timesOff := [] |}.

(** ** Facts about [includes] *)

Lemma prefix_empty (s : string) : String.prefix EmptyString s = true.
Proof. destruct s; reflexivity. Qed.

Lemma prefix_newline_cons (c : ascii) (s : string) :
  String.prefix newline (String c s) = true <-> c = LF.
Proof.
  unfold newline. cbn [String.prefix].
  destruct (ascii_dec LF c) as [E|E].
  - rewrite prefix_empty. split; congruence.
  - split; [discriminate | congruence].
Qed.

Lemma includes_cons (c : ascii) (s sub : string) :
  includes (String c s) sub = String.prefix sub (String c s) || includes s sub.
Proof. reflexivity. Qed.

Lemma includes_newline_In (s : string) :
  includes s newline = true <-> In LF (list_ascii_of_string s).
Proof.
  induction s as [|c s IH].
  - cbn. split; [discriminate | tauto].
  - rewrite includes_cons, orb_true_iff, prefix_newline_cons, IH.
    cbn [list_ascii_of_string In]. intuition congruence.
Qed.

(** ** What the constructor returns *)

Section ConstructorFacts.
Context `{Collaborators}.

Lemma multiline_of_text_spec (text : Value) :
  exists ml : bool,
    multiline_of_text text = Ok ml
    /\ (ml = true <->
        exists s, text = VString s /\ In LF (list_ascii_of_string s)).
Proof.
  destruct text as [| |b|n|s|l|r|r];
    try (exists false; split; [reflexivity |];
         split; [discriminate | intros (s0 & Hs & _); discriminate]).
  exists (includes s newline). split.
  - cbn. destruct (includes s newline); reflexivity.
  - rewrite includes_newline_In. split.
    + intros Hin. exists s. split; [reflexivity | exact Hin].
    + intros (s0 & Hs & Hin). injection Hs as ->. exact Hin.
Qed.

Lemma constructor_inv (arg : option (gmap string Value))
    (tr : list Effect) (this : ButtonStim Mouse) :
  ButtonStim_constructor arg = (tr, Ok this) ->
  exists this0 ml mouse,
    TextBox_constructor (super_options (destructure arg)) = Ok this0
    /\ multiline_of_text (Opt.text (destructure arg)) = Ok ml
    /\ Mouse_constructor (mouse_options (destructure arg)) = Ok mouse
    /\ this = {| inherited := <["_multiline" := VBool ml]> this0;
                 listener := mouse;
                 wasClicked := false; timesOn := []; timesOff := [] |}.
Proof.
  unfold ButtonStim_constructor, lift, emit, _addAttribute.
  destruct (TextBox_constructor _) as [this0|e] eqn:Hsuper;
    cbv [mbind W_bind mret W_ret]; [| discriminate].
  destruct (multiline_of_text _) as [ml|e] eqn:Hml;
    cbv [mbind W_bind mret W_ret]; [| discriminate].
  destruct (Mouse_constructor _) as [mouse|e] eqn:Hmouse;
    cbv [mbind W_bind mret W_ret]; [| discriminate].
  destruct (toBoolean _); intros [= _ <-];
    exists this0, ml, mouse; auto.
Qed.

Lemma constructor_succeeds (arg : option (gmap string Value))
    (this0 : gmap string Value) (mouse : Mouse) :
  TextBox_constructor (super_options (destructure arg)) = Ok this0 ->
  Mouse_constructor (mouse_options (destructure arg)) = Ok mouse ->
  exists tr ml,
    multiline_of_text (Opt.text (destructure arg)) = Ok ml
    /\ ButtonStim_constructor arg
       = (tr, Ok {| inherited := <["_multiline" := VBool ml]> this0;
                    listener := mouse;
                    wasClicked := false; timesOn := []; timesOff := [] |}).
Proof.
  intros Hsuper Hmouse.
  destruct (multiline_of_text_spec (Opt.text (destructure arg)))
    as (ml & Hml & _).
  unfold ButtonStim_constructor, lift, emit, _addAttribute.
  rewrite Hsuper, Hml, Hmouse; cbn.
  destruct (toBoolean _); cbn; eexists; exists ml; split; eauto.
Qed.

Lemma layout_mode_insert (this0 : gmap string Value) (ml : bool) (mouse : Mouse)
    (w : bool) (on off : list Time) :
  layout_mode {| inherited := <["_multiline" := VBool ml]> this0;
                 listener := mouse;
                 wasClicked := w; timesOn := on; timesOff := off |}
  = VBool ml.
Proof. unfold layout_mode, get. cbn. by rewrite lookup_insert_eq. Qed.

End ConstructorFacts.

(** ** The constructor *)

Section Constructor.
Context `{Collaborators}.

(** C1.  Whenever construction succeeds, the control's layout mode
    [_multiline] is a boolean, and it is [true] exactly when the supplied
    text is a string with at least one line-feed character in it.  The
    options are arbitrary, so a [multiline] flag among them, true or
    false, has no say. *)
Theorem multiline_iff_line_break (arg : option (gmap string Value))
    (tr : list Effect) (this : ButtonStim Mouse) :
  ButtonStim_constructor arg = (tr, Ok this) ->
  exists ml : bool,
    layout_mode this = VBool ml
    /\ (ml = true <->
        exists s, get (options_of arg) "text" = VString s
                  /\ In LF (list_ascii_of_string s)).
Proof.
  intros Hnew.
  destruct (constructor_inv _ _ _ Hnew) as (this0 & ml & mouse & _ & Hml & _ & ->).
  destruct (multiline_of_text_spec (Opt.text (destructure arg)))
    as (ml' & Hml' & Hiff).
  assert (ml' = ml) as -> by congruence.
  exists ml. split; [apply layout_mode_insert | exact Hiff].
Qed.

(** C7.  Whatever options the caller supplies, the first thing the
    constructor does is to build the label, from an option object whose
    [alignment] is the string "center" and whose [text] and [placeholder]
    are both the supplied text, that is, the [text] property of the
    argument ([undefined] when the property or the argument is missing);
    when construction succeeds, the control's inherited state is what the
    label constructor made of exactly these options, with the layout mode
    written over it. *)
Theorem label_centered_text_as_placeholder (arg : option (gmap string Value)) :
  let supplied :=
    match arg with
    | Some o => match o !! "text" with Some v => v | None => VUndefined end
    | None => VUndefined
    end in
  exists (opts : gmap string Value) (rest : list Effect),
    effects (ButtonStim_constructor arg) = SuperConstructor opts :: rest
    /\ opts !! "alignment" = Some (VString "center")
    /\ opts !! "text" = Some supplied
    /\ opts !! "placeholder" = Some supplied
    /\ (forall tr this,
          ButtonStim_constructor arg = (tr, Ok this) ->
          exists this0 ml,
            TextBox_constructor opts = Ok this0
            /\ inherited this = <["_multiline" := VBool ml]> this0).
Proof.
  intros supplied.
  assert (Hsupplied : get (options_of arg) "text" = supplied).
  { subst supplied. destruct arg as [o|]; [reflexivity |].
    unfold get, options_of. rewrite lookup_empty. reflexivity. }
  exists (super_options (destructure arg)).
  assert (Hfirst : exists rest,
             effects (ButtonStim_constructor arg)
             = SuperConstructor (super_options (destructure arg)) :: rest).
  { unfold ButtonStim_constructor, lift, emit, _addAttribute, effects.
    destruct (TextBox_constructor _); cbv [mbind W_bind mret W_ret fst];
      [| eauto].
    destruct (multiline_of_text _); cbv [mbind W_bind mret W_ret fst];
      [| eauto].
    destruct (Mouse_constructor _); cbv [mbind W_bind mret W_ret fst];
      [| eauto].
    destruct (toBoolean _); cbn [app]; eauto. }
  destruct Hfirst as [rest Hrest]. exists rest.
  split; [exact Hrest |].
  split; [reflexivity |].
  split; [rewrite <- Hsupplied; reflexivity |].
  split; [rewrite <- Hsupplied; reflexivity |].
  intros tr this Hnew.
  destruct (constructor_inv _ _ _ Hnew) as (this0 & ml & mouse & Hs & _ & _ & ->).
  exists this0, ml. split; [exact Hs | reflexivity].
Qed.

(** C10.  When the supplied text is not a string (in particular when it
    is omitted and reads as [undefined]), deriving the layout mode raises
    nothing and yields [false]; so construction succeeds as soon as the
    label and the listener can be built, and the layout mode of every
    control so constructed is single-line. *)
Theorem text_not_a_string_is_single_line (arg : option (gmap string Value)) :
  (forall s, get (options_of arg) "text" <> VString s) ->
  multiline_of_text (get (options_of arg) "text") = Ok false
  /\ (forall this0 mouse,
        TextBox_constructor (super_options (destructure arg)) = Ok this0 ->
        Mouse_constructor (mouse_options (destructure arg)) = Ok mouse ->
        exists tr this, ButtonStim_constructor arg = (tr, Ok this))
  /\ (forall tr this,
        ButtonStim_constructor arg = (tr, Ok this) ->
        layout_mode this = VBool false).
Proof.
  intros Hnot.
  assert (Hml : multiline_of_text (get (options_of arg) "text") = Ok false).
  { destruct (get (options_of arg) "text") eqn:Ht; try reflexivity.
    exfalso. eapply Hnot. reflexivity. }
  split; [exact Hml |]. split.
  - intros this0 mouse Hs Hm.
    destruct (constructor_succeeds arg this0 mouse Hs Hm) as (tr & ml & _ & Hnew).
    eauto.
  - intros tr this Hnew.
    destruct (constructor_inv _ _ _ Hnew) as (this0 & ml & mouse & _ & Hml' & _ & ->).
    change (Opt.text (destructure arg)) with (get (options_of arg) "text") in Hml'.
    rewrite Hml in Hml'. injection Hml' as <-.
    apply layout_mode_insert.
Qed.

(** An omitted argument, or an option object without a [text] key, has
    no string as its text. *)
Lemma omitted_text_not_a_string (arg : option (gmap string Value)) :
  options_of arg !! "text" = None ->
  forall s, get (options_of arg) "text" <> VString s.
Proof. intros Hnone s. unfold get. rewrite Hnone. discriminate. Qed.

End Constructor.

(** ** The methods *)

Section Methods.
Context `{Collaborators}.

Lemma reset_run (this : ButtonStim Mouse) :
  reset this
  = ([ IsPressedIn [1; 0; 0] (isClicked_value this);
       SetAttribute "wasClicked" (VBool (isClicked_value this));
       SetAttribute "timesOn" (VArray []);
       SetAttribute "timesOff" (VArray []);
       SuperReset ],
     Ok (tt, {| inherited := TextBox_reset (inherited this);
                listener := listener this;
                wasClicked := isClicked_value this;
                timesOn := []; timesOff := [] |})).
Proof. reflexivity. Qed.

Lemma after_reset (this : ButtonStim Mouse) :
  after reset this
  = {| inherited := TextBox_reset (inherited this);
       listener := listener this;
       wasClicked := isClicked_value this;
       timesOn := []; timesOff := [] |}.
Proof. unfold after. rewrite reset_run. reflexivity. Qed.

(** C2.  From every state, [reset()] returns normally; it asks the
    listener first and stores the answer, the value of [isClicked] right
    before the call, in [wasClicked]; it then empties [timesOn] and
    [timesOff]; and it runs the label's own reset last, after the click
    history is cleared.  Afterwards both sequences are empty and
    [wasClicked] holds the captured answer. *)
Theorem reset_captures_then_clears (this : ButtonStim Mouse) :
  exists (clicked : bool) (this' : ButtonStim Mouse),
    outcome (isClicked this) = Ok (clicked, this)
    /\ reset this
       = ([ IsPressedIn [1; 0; 0] clicked;
            SetAttribute "wasClicked" (VBool clicked);
            SetAttribute "timesOn" (VArray []);
            SetAttribute "timesOff" (VArray []);
            SuperReset ],
          Ok (tt, this'))
    /\ wasClicked this' = clicked
    /\ timesOn this' = []
    /\ timesOff this' = []
    /\ inherited this' = TextBox_reset (inherited this).
Proof.
  exists (isClicked_value this). eexists.
  split; [reflexivity |].
  split; [apply reset_run |].
  cbn. auto.
Qed.

(** C3.  From every state, [numClicks] returns the length of [timesOn],
    a non-negative integer, without any effect and with the control left
    as it was. *)
Theorem numClicks_is_length_of_timesOn (this : ButtonStim Mouse) :
  exists n : Z,
    numClicks this = ([], Ok (n, this))
    /\ n = Z.of_nat (length (timesOn this))
    /\ 0 <= n.
Proof.
  exists (Z.of_nat (length (timesOn this))).
  split; [reflexivity |]. split; [reflexivity | apply Nat2Z.is_nonneg].
Qed.

Lemma isClicked_after_reset {G : Type} (g : gmap string Value -> G)
    (this : ButtonStim Mouse) :
  hit_test_reads g -> label_reset_keeps g ->
  isClicked_value (after reset this) = isClicked_value this.
Proof.
  intros Hreads Hkeeps. unfold isClicked_value.
  rewrite after_reset at 1. cbn [listener].
  apply Hreads. rewrite after_reset. cbn [inherited]. apply Hkeeps.
Qed.


(** C5.  From every state, [isClicked] returns what the listener answers
    to the query [isPressedIn] for this control with the button selector
    [[1, 0, 0]] (first button asked for, second and third not); the query
    is its only effect, and the control, its click history included, is
    left as it was. *)
Theorem isClicked_is_listener_answer (this : ButtonStim Mouse) :
  exists answer : bool,
    answer = isPressedIn (listener this) this [1; 0; 0]
    /\ isClicked this = ([IsPressedIn [1; 0; 0] answer], Ok (answer, this))
    /\ forallb (fun e => negb (is_mutation e)) (effects (isClicked this)) = true
    /\ timesOn (after isClicked this) = timesOn this
    /\ timesOff (after isClicked this) = timesOff this.
Proof.
  exists (isClicked_value this).
  split; [reflexivity |]. split; [reflexivity |].
  split; [reflexivity |]. split; reflexivity.
Qed.


End Methods.

(** ** A freshly constructed control *)

Section Fresh.
Context `{Collaborators}.

(** C8, as the code has it.  Right after a successful construction
    [wasClicked] is [false], [timesOn] and [timesOff] are empty and
    [numClicks] is 0.  [isClicked] is the answer of the new listener: it
    is [false] when the listener reports no press of the first button
    over the control, and [true] when it reports one.  A control built
    from the text "Click me" alone is in single-line layout mode. *)
Theorem fresh_control (arg : option (gmap string Value))
    (tr : list Effect) (this : ButtonStim Mouse) :
  ButtonStim_constructor arg = (tr, Ok this) ->
  wasClicked this = false
  /\ timesOn this = []
  /\ timesOff this = []
  /\ outcome (numClicks this) = Ok (0, this)
  /\ outcome (isClicked this)
     = Ok (isPressedIn (listener this) this [1; 0; 0], this)
  /\ (isPressedIn (listener this) this [1; 0; 0] = false ->
      outcome (isClicked this) = Ok (false, this))
  /\ (arg = click_me -> layout_mode this = VBool false).
Proof.
  intros Hnew.
  destruct (constructor_inv _ _ _ Hnew)
    as (this0 & ml & mouse & _ & Hml & _ & Hthis).
  subst this. cbn [wasClicked timesOn timesOff].
  do 5 (split; [reflexivity |]). split.
  - intros Hidle.
    change (outcome (isClicked ?b)) with (@Ok (bool * _) (isClicked_value b, b)).
    unfold isClicked_value. rewrite Hidle. reflexivity.
  - intros ->. rewrite layout_mode_insert.
    cbn in Hml. injection Hml as <-. reflexivity.
Qed.

End Fresh.

(** ** The click history inside the frame loop *)

Section History.
Context `{Collaborators}.

Lemma non_decreasing_snoc (l : list Time) (t : Time) :
  non_decreasing l -> Forall (fun x => x <= t) l -> non_decreasing (l ++ [t]).
Proof.
  unfold non_decreasing. induction l as [|a l IH]; intros Hs Hb; cbn.
  - repeat constructor.
  - apply StronglySorted_inv in Hs as [Hs Ha].
    apply Forall_cons in Hb as [Hat Hb].
    constructor; [apply IH; assumption |].
    apply Forall_app. split; [exact Ha | repeat constructor; exact Hat].
Qed.

Lemma bounded_later (l : list Time) (t t' : Time) :
  t <= t' -> Forall (fun x => x <= t) l -> Forall (fun x => x <= t') l.
Proof.
  intros Hle Hb. eapply Forall_impl; [exact Hb |].
  intros x Hx. cbn in Hx. lia.
Qed.

Lemma bounded_snoc (l : list Time) (t : Time) :
  Forall (fun x => x <= t) l -> Forall (fun x => x <= t) (l ++ [t]).
Proof.
  intros Hb. apply Forall_app. split; [exact Hb |].
  repeat constructor. lia.
Qed.

Lemma frameUpdate_invariant (d : Driver Mouse) :
  loop_invariant d -> loop_invariant (frameUpdate d).
Proof.
  unfold loop_invariant, frameUpdate, has_unmatched_press.
  intros (Hon & Hoff & Bon & Boff & Hlen). revert Hlen.
  destruct (phase d) eqn:Hph, (isClicked_value (control d)); intros Hlen;
    cbn [control phase clock record_press timesOn timesOff];
    rewrite ?Hph.
  - (* IDLE, pressed: a press edge *)
    rewrite length_app. cbn [length].
    split; [apply non_decreasing_snoc; assumption |].
    split; [assumption |].
    split; [apply bounded_snoc; assumption |].
    split; [assumption |]. left. lia.
  - (* IDLE, not pressed *)
    auto.
  - (* PRESSED, still pressed *)
    auto.
  - (* PRESSED, not pressed: a release edge *)
    destruct (Nat.ltb_spec (length (timesOff (control d)))
                           (length (timesOn (control d)))) as [Hlt|Hge];
      cbn [record_release timesOn timesOff].
    + rewrite length_app. cbn [length].
      split; [assumption |].
      split; [apply non_decreasing_snoc; assumption |].
      split; [assumption |].
      split; [apply bounded_snoc; assumption |].
      destruct Hlen as [Hlen|Hlen]; lia.
    + repeat (split; [assumption |]).
      destruct Hlen as [Hlen|Hlen]; lia.
Qed.

Lemma step_invariant (d : Driver Mouse) (e : Event) :
  loop_invariant d -> loop_invariant (step d e).
Proof.
  intros Hinv. destruct e as [m|dt| |]; cbn [step].
  - exact Hinv.
  - destruct Hinv as (Hon & Hoff & Bon & Boff & Hlen).
    unfold loop_invariant. cbn [control phase clock].
    repeat (split; [first [assumption
                          | eapply bounded_later; [| eassumption]; lia] |]).
    exact Hlen.
  - apply frameUpdate_invariant. exact Hinv.
  - destruct Hinv as (_ & _ & _ & _ & Hlen).
    unfold loop_invariant. rewrite after_reset.
    cbn [control phase clock timesOn timesOff length].
    repeat (split; [constructor |]).
    destruct (phase d); auto.
Qed.

Lemma run_invariant (es : list Event) (d : Driver Mouse) :
  loop_invariant d -> loop_invariant (run es d).
Proof.
  unfold run. revert d. induction es as [|e es IH]; intros d Hinv; cbn.
  - exact Hinv.
  - apply IH, step_invariant, Hinv.
Qed.

Lemma boot_invariant (arg : option (gmap string Value)) (tr : list Effect)
    (this : ButtonStim Mouse) (t0 : Time) :
  ButtonStim_constructor arg = (tr, Ok this) ->
  loop_invariant (boot this t0).
Proof.
  intros Hnew.
  destruct (constructor_inv _ _ _ Hnew) as (this0 & ml & mouse & _ & _ & _ & ->).
  unfold loop_invariant. cbn. repeat (split; [constructor |]). reflexivity.
Qed.


End History.

(** ** Runs on the test bench *)

Lemma multiline_iff_line_break_witness :
  exists tr this,
    @ButtonStim_constructor (bench false) two_lines = (tr, Ok this)
    /\ get (options_of two_lines) "multiline" = VBool false
    /\ layout_mode this = VBool true.
Proof.
  eexists _, _. split; [vm_compute; reflexivity |].
  split; [reflexivity |].
  match goal with
  | |- layout_mode ?b = _ =>
      destruct (multiline_iff_line_break (H := bench false) two_lines _ b eq_refl)
        as (ml & Hmode & Hiff)
  end.
  rewrite Hmode. f_equal. apply Hiff.
  eexists. split; [reflexivity |].
  apply includes_newline_In. reflexivity.
Defined.

Lemma text_not_a_string_is_single_line_witness :
  multiline_of_text (get (options_of None) "text") = Ok false
  /\ exists tr this,
       @ButtonStim_constructor (bench false) None = (tr, Ok this)
       /\ layout_mode this = VBool false.
Proof.
  destruct (text_not_a_string_is_single_line (H := bench false) None
              (omitted_text_not_a_string None eq_refl)) as (Hml & Hnew & Hmode).
  split; [exact Hml |].
  destruct (Hnew _ _ eq_refl eq_refl) as (tr & this & Hthis).
  exists tr, this. split; [exact Hthis | exact (Hmode _ _ Hthis)].
Defined.

Lemma fresh_control_witness :
  exists tr this,
    @ButtonStim_constructor (bench false) click_me = (tr, Ok this)
    /\ wasClicked this = false
    /\ outcome (numClicks this) = Ok (0, this)
    /\ outcome (isClicked this) = Ok (false, this)
    /\ layout_mode this = VBool false.
Proof.
  eexists _, _. split; [vm_compute; reflexivity |].
  match goal with
  | |- wasClicked ?b = _ /\ _ =>
      destruct (fresh_control (H := bench false) click_me _ b eq_refl)
        as (Hw & _ & _ & Hn & _ & Hidle & Hmode)
  end.
  split; [exact Hw |]. split; [exact Hn |].
  split; [apply Hidle; reflexivity | apply Hmode; reflexivity].
Defined.

(** C8 as stated fails: the listener may already report a press when
    the control is built, and then [isClicked] is [true] right after
    construction. *)
Lemma fresh_control_may_be_clicked :
  ~ (forall (C : Collaborators) (tr : list Effect) (this : ButtonStim Mouse),
        ButtonStim_constructor click_me = (tr, Ok this) ->
        outcome (numClicks this) = Ok (0, this)
        /\ outcome (isClicked this) = Ok (false, this)
        /\ layout_mode this = VBool false).
Proof.
  intros Hclaim.
  destruct (Hclaim (bench true) _ _ eq_refl) as (_ & Hclicked & _).
  vm_compute in Hclicked. discriminate.
Qed.

Lemma label_centered_text_as_placeholder_witness :
  exists opts rest,
    effects (@ButtonStim_constructor (bench false) two_lines)
    = SuperConstructor opts :: rest
    /\ get (options_of two_lines) "alignment" = VString "left"
    /\ opts !! "alignment" = Some (VString "center")
    /\ opts !! "text" = Some (VString ("Line1" +:+ newline +:+ "Line2"))
    /\ opts !! "placeholder" = Some (VString ("Line1" +:+ newline +:+ "Line2")).
Proof.
  destruct (label_centered_text_as_placeholder (H := bench false) two_lines)
    as (opts & rest & Hfirst & Halign & Htext & Hplace & _).
  exists opts, rest.
  split; [exact Hfirst |].
  split; [vm_compute; reflexivity |].
  split; [exact Halign |].
  split; (etrans; [eassumption | vm_compute; reflexivity]).
Defined.






(** ** The scenarios of the specification, run on the bench *)

(** One press and its release give one click; a reset then clears the
    history and, the button being up, [wasClicked] is [false]. *)
Example scenario_click_then_reset :
  let this := the_control (H := bench false) click_me mid_click in
  let d := run [pointer true; TimePasses 1; Frame;
                pointer false; TimePasses 1; Frame] (boot this 0) in
  let d' := run [CallReset] d in
  (timesOn (control d), timesOff (control d)) = ([1], [2])
  /\ fst <$> (match outcome (numClicks (control d)) with
              | Ok r => Some r | Throw _ => None end) = Some 1
  /\ (timesOn (control d'), timesOff (control d')) = ([], [])
  /\ wasClicked (control d') = false.
Proof. cbv zeta. repeat split; vm_compute; reflexivity. Qed.

(** A reset while the button is held down records that fact in
    [wasClicked], clears the history, and leaves the button pressed; the
    release that follows finds no press to match and is not recorded. *)
Example scenario_reset_while_pressed :
  let this := the_control (H := bench false) click_me mid_click in
  let d := run [pointer true; TimePasses 1; Frame; CallReset] (boot this 0) in
  let d' := run reset_while_pressed (boot this 0) in
  wasClicked (control d) = true
  /\ (timesOn (control d), timesOff (control d)) = ([], [])
  /\ isClicked_value (control d) = true
  /\ phase d = PRESSED
  /\ (timesOn (control d'), timesOff (control d')) = ([], [])
  /\ phase d' = IDLE.
Proof. cbv zeta. repeat split; vm_compute; reflexivity. Qed.

(** ** The three ways a construction can go *)

Section Run.
Context `{Collaborators}.

Lemma multiline_of_text_total (text : Value) :
  multiline_of_text text = Ok (has_line_break text).
Proof.
  destruct text; try reflexivity.
  cbn. destruct (includes s newline); reflexivity.
Qed.

Lemma constructor_run (arg : option (gmap string Value)) :
  ButtonStim_constructor arg
  = match TextBox_constructor (super_options (destructure arg)) with
    | Throw e => ([SuperConstructor (super_options (destructure arg))], Throw e)
    | Ok this0 =>
        match Mouse_constructor (mouse_options (destructure arg)) with
        | Throw e =>
            ([ SuperConstructor (super_options (destructure arg));
               LoggerDebug "create a new Button with name: "
                 (Opt.name (destructure arg));
               NewMouse (mouse_options (destructure arg)) ],
             Throw e)
        | Ok mouse =>
            let this1 :=
              <["_multiline" := VBool (has_line_break (Opt.text (destructure arg)))]>
                this0 in
            let this :=
              {| inherited := this1; listener := mouse;
                 wasClicked := false; timesOn := []; timesOff := [] |} in
            ([ SuperConstructor (super_options (destructure arg));
               LoggerDebug "create a new Button with name: "
                 (Opt.name (destructure arg));
               NewMouse (mouse_options (destructure arg)) ]
             ++ attribute_declarations
             ++ (if toBoolean (get this1 "_autoLog")
                 then [ExperimentLog (get this1 "name") (util_toString this)]
                 else []),
             Ok this)
        end
    end.
Proof.
  unfold ButtonStim_constructor, lift, emit, _addAttribute,
    attribute_declarations.
  rewrite multiline_of_text_total.
  destruct (TextBox_constructor _) as [this0|e];
    cbv [mbind W_bind mret W_ret]; [| reflexivity].
  destruct (Mouse_constructor _) as [mouse|e];
    cbv [mbind W_bind mret W_ret]; [| reflexivity].
  cbv zeta. destruct (toBoolean _); reflexivity.
Qed.

Lemma first_effect_is_super (arg : option (gmap string Value)) :
  exists rest,
    effects (ButtonStim_constructor arg)
    = SuperConstructor (super_options (destructure arg)) :: rest.
Proof.
  rewrite constructor_run.
  destruct (TextBox_constructor _) as [this0|e0]; [| cbn; eauto].
  destruct (Mouse_constructor _) as [mouse|e1]; cbn [effects fst app]; eauto.
Qed.

Lemma get_options_of (arg : option (gmap string Value)) (k : string) :
  get (options_of arg) k
  = match arg with
    | Some o => match o !! k with Some v => v | None => VUndefined end
    | None => VUndefined
    end.
Proof.
  destruct arg as [o|]; [reflexivity |].
  unfold get, options_of. rewrite lookup_empty. reflexivity.
Qed.

End Run.

(** ** More on the constructor: what is read, what is forwarded *)

Section Options.
Context `{Collaborators}.

(** X1.  A default of the parameter list is taken exactly when the
    caller's option reads as [undefined] (missing, or present with the
    value [undefined]); any other value, [null] and [false] included, is
    forwarded to the label as it is. *)
Theorem default_only_for_undefined (arg : option (gmap string Value))
    (k : string) (d : Value) :
  (k, d) ∈ constructor_defaults ->
  (get (options_of arg) k = VUndefined ->
   super_options (destructure arg) !! k = Some d)
  /\ (get (options_of arg) k <> VUndefined ->
      super_options (destructure arg) !! k = Some (get (options_of arg) k)).
Proof.
  unfold constructor_defaults. intros Hin.
  assert (Hget : super_options (destructure arg) !! k
                 = Some (get_or (options_of arg) k d)).
  { repeat (apply elem_of_cons in Hin as [[= -> ->]|Hin]); try reflexivity.
    by apply elem_of_nil in Hin. }
  rewrite Hget. unfold get_or.
  split; intros Hk.
  - rewrite Hk. reflexivity.
  - destruct (get (options_of arg) k); congruence.
Qed.

(** X2.  The object the constructor hands to [super()] carries every
    option without a default under its own name with the value the
    argument has for it ([undefined] when the property or the argument is
    missing), and has exactly the 22 destructured names, [placeholder]
    and [alignment] as its keys. *)
Theorem options_forwarded_as_given (arg : option (gmap string Value)) :
  exists (opts : gmap string Value) (rest : list Effect),
    effects (ButtonStim_constructor arg) = SuperConstructor opts :: rest
    /\ (forall k, k ∈ plain_keys ->
          opts !! k
          = Some (match arg with
                  | Some o => match o !! k with Some v => v | None => VUndefined end
                  | None => VUndefined
                  end))
    /\ (forall k,
          is_Some (opts !! k)
          <-> k ∈ destructured_keys ++ ["placeholder"; "alignment"]).
Proof.
  destruct (first_effect_is_super arg) as [rest Hfirst].
  exists (super_options (destructure arg)), rest.
  split; [exact Hfirst |]. split.
  - unfold plain_keys. intros k Hin. rewrite <- get_options_of.
    repeat (apply elem_of_cons in Hin as [->|Hin]); try reflexivity.
    by apply elem_of_nil in Hin.
  - intros k. unfold super_options.
    destruct (list_to_map _ !! k) as [v|] eqn:Hk.
    + split; [intros _ | eauto].
      apply elem_of_list_to_map_2 in Hk.
      apply (list_elem_of_fmap_2 fst) in Hk.
      cbn [fmap list_fmap fst] in Hk.
      repeat (apply elem_of_cons in Hk as [->|Hk]);
        try (apply list_elem_of_In; cbv [destructured_keys app In]; tauto).
      by apply elem_of_nil in Hk.
    + split; [intros [? [=]] |]. intros Hin.
      apply not_elem_of_list_to_map in Hk. exfalso. apply Hk.
      cbn [fmap list_fmap fst].
      cbv [destructured_keys app] in Hin.
      repeat (apply elem_of_cons in Hin as [->|Hin]);
        try (apply list_elem_of_In; cbv [In]; tauto).
      by apply elem_of_nil in Hin.
Qed.

(** X3.  The constructor reads nothing but the 22 destructured options:
    two arguments that agree on them (a missing option agreeing with an
    [undefined] one, an omitted argument with an empty object) give the
    same run, effect for effect, and the same control or exception. *)
Theorem other_options_are_ignored (arg1 arg2 : option (gmap string Value)) :
  Forall (fun k => get (options_of arg1) k = get (options_of arg2) k)
         destructured_keys ->
  ButtonStim_constructor arg1 = ButtonStim_constructor arg2.
Proof.
  unfold destructured_keys. intros Hsame.
  assert (Hp : destructure arg1 = destructure arg2).
  { repeat (apply Forall_cons in Hsame as [? Hsame]).
    unfold destructure, get_or. cbv beta zeta in *.
    repeat match goal with
           | Hk : get (options_of arg1) _ = _ |- _ => rewrite Hk; clear Hk
           end.
    reflexivity. }
  unfold ButtonStim_constructor. rewrite Hp. reflexivity.
Qed.

(** X4.  Unless the label constructor throws (and the construction ends
    there), the third effect of the constructor is the creation of the
    listener, from an object with the three keys [name], [win] and
    [autoLog] and no other, each with the value the argument has for it
    ([undefined] when missing): the very values the label received under
    these names. *)
Theorem listener_options (arg : option (gmap string Value)) :
  (exists opts e,
      ButtonStim_constructor arg = ([SuperConstructor opts], Throw e))
  \/ (exists (opts : gmap string Value) (debug : Effect)
             (mopts : gmap string Value) (rest : list Effect),
        effects (ButtonStim_constructor arg)
        = SuperConstructor opts :: debug :: NewMouse mopts :: rest
        /\ (forall k, is_Some (mopts !! k) <-> k ∈ ["name"; "win"; "autoLog"])
        /\ (forall k, k ∈ ["name"; "win"; "autoLog"] ->
              mopts !! k
              = Some (match arg with
                      | Some o =>
                          match o !! k with Some v => v | None => VUndefined end
                      | None => VUndefined
                      end)
              /\ opts !! k = mopts !! k)).
Proof.
  rewrite constructor_run.
  destruct (TextBox_constructor _) as [this0|e0]; [right | left; eauto].
  exists (super_options (destructure arg)),
         (LoggerDebug "create a new Button with name: "
            (Opt.name (destructure arg))),
         (mouse_options (destructure arg)).
  assert (Hkeys : forall k, is_Some (mouse_options (destructure arg) !! k)
                            <-> k ∈ ["name"; "win"; "autoLog"]).
  { intros k. unfold mouse_options.
    destruct (list_to_map _ !! k) as [v|] eqn:Hk.
    - split; [intros _ | eauto].
      apply elem_of_list_to_map_2 in Hk.
      apply (list_elem_of_fmap_2 fst) in Hk. exact Hk.
    - split; [intros [? [=]] |]. intros Hin.
      apply not_elem_of_list_to_map in Hk. exfalso. apply Hk. exact Hin. }
  assert (Hvalues : forall k, k ∈ ["name"; "win"; "autoLog"] ->
            mouse_options (destructure arg) !! k
            = Some (match arg with
                    | Some o =>
                        match o !! k with Some v => v | None => VUndefined end
                    | None => VUndefined
                    end)
            /\ super_options (destructure arg) !! k
               = mouse_options (destructure arg) !! k).
  { intros k Hin. rewrite <- get_options_of.
    repeat (apply elem_of_cons in Hin as [->|Hin]);
      [| | | by apply elem_of_nil in Hin]; split; reflexivity. }
  destruct (Mouse_constructor _) as [mouse|e1]; cbn [effects fst app];
    eexists; (split; [reflexivity |]); split; assumption.
Qed.

End Options.

(** ** More on the constructor: failure, success, logging *)

Section Outcome.
Context `{Collaborators}.

(** X5.  When the label constructor throws, the construction throws the
    same exception and has done nothing else: no debug line, no listener,
    no attribute declared, no creation record. *)
Theorem label_failure_stops_construction (arg : option (gmap string Value))
    (e : Exception) :
  TextBox_constructor (super_options (destructure arg)) = Throw e ->
  ButtonStim_constructor arg
  = ([SuperConstructor (super_options (destructure arg))], Throw e).
Proof. intros Hthrow. rewrite constructor_run, Hthrow. reflexivity. Qed.

(** X6.  When the label is built but the listener constructor throws,
    the construction throws the listener's exception; by then the label
    exists and the debug line is written, but no attribute is declared
    and no creation record is logged. *)
Theorem listener_failure_stops_construction (arg : option (gmap string Value))
    (this0 : gmap string Value) (e : Exception) :
  TextBox_constructor (super_options (destructure arg)) = Ok this0 ->
  Mouse_constructor (mouse_options (destructure arg)) = Throw e ->
  ButtonStim_constructor arg
  = ([ SuperConstructor (super_options (destructure arg));
       LoggerDebug "create a new Button with name: " (get (options_of arg) "name");
       NewMouse (mouse_options (destructure arg)) ],
     Throw e).
Proof.
  intros Hlabel Hthrow. rewrite constructor_run, Hlabel, Hthrow. reflexivity.
Qed.

(** X8.  A successful construction does, in this order: build the label,
    write the debug line with the caller's [name], build the listener,
    declare [wasClicked], [timesOn] and [timesOff]; and then, exactly
    when the new control's own [_autoLog] is truthy, log one creation
    record with the control's [name] and the dump of the finished
    control.  Nothing else happens. *)
Theorem successful_construction_trace (arg : option (gmap string Value))
    (tr : list Effect) (this : ButtonStim Mouse) :
  ButtonStim_constructor arg = (tr, Ok this) ->
  tr = [ SuperConstructor (super_options (destructure arg));
         LoggerDebug "create a new Button with name: "
           (get (options_of arg) "name");
         NewMouse (mouse_options (destructure arg)) ]
       ++ attribute_declarations
       ++ (if toBoolean (get (inherited this) "_autoLog")
           then [ExperimentLog (get (inherited this) "name") (util_toString this)]
           else []).
Proof.
  rewrite constructor_run.
  destruct (TextBox_constructor _) as [this0|e0]; [| discriminate].
  destruct (Mouse_constructor _) as [mouse|e1]; [| discriminate].
  cbv zeta. intros [= <- <-]. reflexivity.
Qed.

End Outcome.

(** ** More on [reset] *)

Section ResetMore.
Context `{Collaborators}.

(** X9.  A second [reset()] right after a first one changes nothing at
    all exactly when the listener answers its query as it answered the
    first one's and the label's own reset, applied again, gives the same
    inherited state. *)
Theorem reset_twice_same_state_iff (this : ButtonStim Mouse) :
  after reset (after reset this) = after reset this
  <-> isClicked_value (after reset this) = isClicked_value this
      /\ TextBox_reset (TextBox_reset (inherited this))
         = TextBox_reset (inherited this).
Proof.
  rewrite (after_reset (after reset this)).
  rewrite (after_reset this) at 1 2 4.
  cbn [inherited listener].
  split.
  - intros [= Hi Hc]. split; [exact Hc | exact Hi].
  - intros [Hc Hi]. rewrite Hc, Hi. reflexivity.
Qed.

(** X10.  [reset()] keeps nothing of the past: two controls with the
    same inherited state and the same listener, whose listener gives the
    same answer, are the same control after [reset()], whatever their
    [wasClicked], [timesOn] and [timesOff] were; and [numClicks] is then 0. *)
Theorem reset_forgets_history (a b : ButtonStim Mouse) :
  inherited a = inherited b ->
  listener a = listener b ->
  isClicked_value a = isClicked_value b ->
  after reset a = after reset b
  /\ outcome (numClicks (after reset a)) = Ok (0, after reset a).
Proof.
  intros Hi Hl Hc. rewrite !after_reset, Hi, Hl, Hc.
  split; reflexivity.
Qed.

End ResetMore.

(** ** Runs of the added properties on the benches *)

Lemma default_only_for_undefined_witness :
  super_options (destructure (Some {[ "bold" := VNull ]})) !! "bold" = Some VNull
  /\ super_options (destructure None) !! "bold" = Some (VBool true).
Proof.
  assert (Hin : ("bold", VBool true) ∈ constructor_defaults).
  { apply list_elem_of_In. cbv [constructor_defaults In]. tauto. }
  split.
  - etrans.
    + apply (proj2 (default_only_for_undefined (Some {[ "bold" := VNull ]})
                      "bold" (VBool true) Hin)).
      vm_compute. discriminate.
    + vm_compute. reflexivity.
  - apply (proj1 (default_only_for_undefined None "bold" (VBool true) Hin)).
    vm_compute. reflexivity.
Defined.

Lemma other_options_are_ignored_witness :
  @ButtonStim_constructor (bench false) click_me_with_extras
  = @ButtonStim_constructor (bench false) click_me.
Proof.
  apply (other_options_are_ignored (H := bench false)).
  unfold destructured_keys.
  repeat (apply Forall_cons; split; [vm_compute; reflexivity |]).
  apply Forall_nil. exact I.
Defined.

Lemma label_failure_stops_construction_witness :
  outcome (@ButtonStim_constructor (lab false true) logged_ok)
  = Throw (Thrown (VString "no window"))
  /\ length (effects (@ButtonStim_constructor (lab false true) logged_ok)) = 1%nat.
Proof.
  rewrite (label_failure_stops_construction (H := lab false true) logged_ok
             (Thrown (VString "no window")) eq_refl).
  split; reflexivity.
Defined.

Lemma listener_failure_stops_construction_witness :
  outcome (@ButtonStim_constructor (lab true false) logged_ok)
  = Throw (Thrown (VString "no mouse"))
  /\ length (effects (@ButtonStim_constructor (lab true false) logged_ok)) = 3%nat.
Proof.
  rewrite (listener_failure_stops_construction (H := lab true false) logged_ok
             _ (Thrown (VString "no mouse")) eq_refl eq_refl).
  split; reflexivity.
Defined.

Lemma successful_construction_trace_witness :
  filter (fun e => is_experiment_log e = true)
         (effects (@ButtonStim_constructor (lab true true) logged_ok))
  = [ExperimentLog (VString "ok") "ButtonStim"].
Proof.
  assert (Hnew : @ButtonStim_constructor (lab true true) logged_ok
                 = (effects (@ButtonStim_constructor (lab true true) logged_ok),
                    Ok (the_control (H := lab true true) logged_ok blank)))
    by (vm_compute; reflexivity).
  rewrite (successful_construction_trace (H := lab true true) _ _ _ Hnew).
  vm_compute. reflexivity.
Defined.

Lemma reset_forgets_history_witness :
  after reset mid_click = after reset mid_click_other_history
  /\ outcome (numClicks (after reset mid_click)) = Ok (0, after reset mid_click).
Proof.
  apply (reset_forgets_history (H := bench false) mid_click
           mid_click_other_history); reflexivity.
Defined.

Lemma options_forwarded_as_given_witness :
  exists opts rest,
    effects (@ButtonStim_constructor (lab true true) logged_ok)
    = SuperConstructor opts :: rest
    /\ opts !! "name" = Some (VString "ok")
    /\ opts !! "text" = Some (VString "OK")
    /\ opts !! "autoLog" = Some (VBool true)
    /\ opts !! "font" = Some VUndefined
    /\ opts !! "editable" = None.
Proof.
  destruct (options_forwarded_as_given (H := lab true true) logged_ok)
    as (opts & rest & Hfirst & Hplain & Hkeys).
  assert (Hin : forall k, In k plain_keys -> k ∈ plain_keys)
    by (intros k; apply list_elem_of_In).
  exists opts, rest. split; [exact Hfirst |].
  repeat split;
    try (etrans; [apply Hplain, Hin; cbv [plain_keys In]; tauto
                 | vm_compute; reflexivity]).
  destruct (opts !! "editable") as [v|] eqn:Hk; [| reflexivity].
  exfalso. assert (Hsome : is_Some (opts !! "editable")) by (rewrite Hk; eauto).
  apply Hkeys in Hsome. apply list_elem_of_In in Hsome.
  cbv [destructured_keys app In] in Hsome.
  repeat (destruct Hsome as [Hsome|Hsome]; [discriminate |]). exact Hsome.
Defined.

Lemma listener_options_witness :
  exists opts debug mopts rest,
    effects (@ButtonStim_constructor (lab true true) logged_ok)
    = SuperConstructor opts :: debug :: NewMouse mopts :: rest
    /\ mopts !! "name" = Some (VString "ok")
    /\ mopts !! "autoLog" = Some (VBool true)
    /\ mopts !! "win" = Some VUndefined
    /\ opts !! "name" = Some (VString "ok").
Proof.
  destruct (listener_options (H := lab true true) logged_ok)
    as [(opts & e & Hthrow) | (opts & debug & mopts & rest & Hfirst & _ & Hvalues)].
  - exfalso. apply (f_equal snd) in Hthrow. vm_compute in Hthrow. discriminate.
  - assert (Hin : forall k, In k ["name"; "win"; "autoLog"]
                            -> k ∈ ["name"; "win"; "autoLog"])
      by (intros k; apply list_elem_of_In).
    exists opts, debug, mopts, rest. split; [exact Hfirst |].
    split; [etrans; [apply Hvalues, Hin; cbv [In]; tauto
                    | vm_compute; reflexivity] |].
    split; [etrans; [apply Hvalues, Hin; cbv [In]; tauto
                    | vm_compute; reflexivity] |].
    split; [etrans; [apply Hvalues, Hin; cbv [In]; tauto
                    | vm_compute; reflexivity] |].
    etrans; [apply Hvalues, Hin; cbv [In]; tauto |].
    etrans; [apply Hvalues, Hin; cbv [In]; tauto | vm_compute; reflexivity].
Defined.
